(** * NBA points projection model: a shallow embedding of PointsProjection.c

    The program is one pure function, [project], from an [Inputs] record to
    an [Output] record, built from one base blend, eight multiplier
    sub-calculations and a clamp.  Every numeric value of the program is a
    C [double].  The embedding uses Rocq's primitive binary64 floats, whose
    operations are the IEEE 754 ones with round-to-nearest-even: this is
    what the program computes on a target where [double] is binary64 and
    each operation is rounded on its own (no extended precision, no fused
    multiply-add).  The two [int] flags are integers, tested against zero
    as C does.

    The [static const] weights and baselines of the source are gathered in
    a [Config] record; [shipped] holds the values written in the source.
    The division operator is a parameter of the model functions, so that
    statements of the kind "no division is performed" can be expressed as
    independence from that operator; the program itself is the instance at
    [PrimFloat.div]. *)

From Stdlib Require Import ZArith QArith Qabs Bool List Ascii String Floats Lia.
Import ListNotations.

Set Warnings "-inexact-float,-notation-overridden".

Local Open Scope float_scope.

(** ** Tunable weights, baselines and caps *)

Record Config : Set := mkConfig {
  W_BASE_LINE : float;
  W_BASE_SEASON_AVG : float;
  W_HOME_AWAY : float;
  W_GAME_TOTAL : float;
  W_TEAM_TOTAL : float;
  W_DEF_VS_POS : float;
  W_RECENT_FORM : float;
  W_MINUTES_TREND : float;
  W_PACE : float;
  W_B2B_PENALTY : float;
  LEAGUE_AVG_GAME_TOTAL : float;
  LEAGUE_AVG_TEAM_TOTAL : float;
  LEAGUE_AVG_PACE : float;
  LEAGUE_BASE_PTS_ALLOWED_POS : float;
  MULT_MIN : float;
  MULT_MAX : float
}.

(** The constants as the source file declares them. *)
Definition shipped : Config := {|
  W_BASE_LINE := 0.60;
  W_BASE_SEASON_AVG := 0.40;
  W_HOME_AWAY := 0.04;
  W_GAME_TOTAL := 0.06;
  W_TEAM_TOTAL := 0.12;
  W_DEF_VS_POS := 0.14;
  W_RECENT_FORM := 0.08;
  W_MINUTES_TREND := 0.10;
  W_PACE := 0.06;
  W_B2B_PENALTY := 0.03;
  LEAGUE_AVG_GAME_TOTAL := 229.0;
  LEAGUE_AVG_TEAM_TOTAL := 114.5;
  LEAGUE_AVG_PACE := 99.5;
  LEAGUE_BASE_PTS_ALLOWED_POS := 23.0;
  MULT_MIN := 0.70;
  MULT_MAX := 1.40
|}.

(** [shipped] with one baseline replaced: the constant "treated as
    configurable". *)
Definition with_team_total_baseline (b : float) (c : Config) : Config :=
  mkConfig (W_BASE_LINE c) (W_BASE_SEASON_AVG c) (W_HOME_AWAY c)
    (W_GAME_TOTAL c) (W_TEAM_TOTAL c) (W_DEF_VS_POS c) (W_RECENT_FORM c)
    (W_MINUTES_TREND c) (W_PACE c) (W_B2B_PENALTY c)
    (LEAGUE_AVG_GAME_TOTAL c) b (LEAGUE_AVG_PACE c)
    (LEAGUE_BASE_PTS_ALLOWED_POS c) (MULT_MIN c) (MULT_MAX c).

Definition with_def_baseline (b : float) (c : Config) : Config :=
  mkConfig (W_BASE_LINE c) (W_BASE_SEASON_AVG c) (W_HOME_AWAY c)
    (W_GAME_TOTAL c) (W_TEAM_TOTAL c) (W_DEF_VS_POS c) (W_RECENT_FORM c)
    (W_MINUTES_TREND c) (W_PACE c) (W_B2B_PENALTY c)
    (LEAGUE_AVG_GAME_TOTAL c) (LEAGUE_AVG_TEAM_TOTAL c) (LEAGUE_AVG_PACE c)
    b (MULT_MIN c) (MULT_MAX c).

Definition with_b2b_penalty (w : float) (c : Config) : Config :=
  mkConfig (W_BASE_LINE c) (W_BASE_SEASON_AVG c) (W_HOME_AWAY c)
    (W_GAME_TOTAL c) (W_TEAM_TOTAL c) (W_DEF_VS_POS c) (W_RECENT_FORM c)
    (W_MINUTES_TREND c) (W_PACE c) w
    (LEAGUE_AVG_GAME_TOTAL c) (LEAGUE_AVG_TEAM_TOTAL c) (LEAGUE_AVG_PACE c)
    (LEAGUE_BASE_PTS_ALLOWED_POS c) (MULT_MIN c) (MULT_MAX c).

Definition with_base_weights (wl ws : float) (c : Config) : Config :=
  mkConfig wl ws (W_HOME_AWAY c)
    (W_GAME_TOTAL c) (W_TEAM_TOTAL c) (W_DEF_VS_POS c) (W_RECENT_FORM c)
    (W_MINUTES_TREND c) (W_PACE c) (W_B2B_PENALTY c)
    (LEAGUE_AVG_GAME_TOTAL c) (LEAGUE_AVG_TEAM_TOTAL c) (LEAGUE_AVG_PACE c)
    (LEAGUE_BASE_PTS_ALLOWED_POS c) (MULT_MIN c) (MULT_MAX c).

(** ** The clamp helper

    C's [x > hi] is IEEE "greater than", that is [hi < x]. *)
Definition gtb (x y : float) : bool := y <? x.
Infix ">?" := gtb (at level 70, no associativity) : float_scope.

Definition clamp (x lo hi : float) : float :=
  if x <? lo then lo else (if x >? hi then hi else x).

(** ** Input and output structs *)

Record Inputs : Set := mkInputs {
  player_name : string;
  player_line_pts : float;
  season_avg_pts : float;
  is_home : Z;
  game_total_ou : float;
  team_total_ou : float;
  opp_pts_allowed_vs_pos : float;
  recent_avg_pts : float;
  season_avg_minutes : float;
  expected_minutes : float;
  matchup_pace : float;
  is_back_to_back : Z
}.

(** The fields of [Output] live in a module of their own: the struct has a
    field [base_points] and the program a function [base_points]. *)
Module Out.
Record Output : Set := mkOutput {
  base_points : float;
  mult_homeaway : float;
  mult_game_total : float;
  mult_team_total : float;
  mult_def_pos : float;
  mult_recent : float;
  mult_minutes : float;
  mult_pace : float;
  mult_b2b : float;
  uncapped_multiplier : float;
  final_multiplier : float;
  projection : float
}.
End Out.
Abbreviation Output := Out.Output.

(** C truth value of an [int]. *)
Definition truthy (n : Z) : bool := negb (n =? 0)%Z.

(** ** Model functions *)

Section Engine.
(** The [/] of the target, and the constants. *)
Variable fdiv : float -> float -> float.
Variable cfg : Config.

Local Notation "x / y" := (fdiv x y) : float_scope.

Definition base_points (i : Inputs) : float :=
  W_BASE_LINE cfg * player_line_pts i
  + W_BASE_SEASON_AVG cfg * season_avg_pts i.

Definition homeaway_multiplier (i : Inputs) : float :=
  let delta := if truthy (is_home i) then W_HOME_AWAY cfg
               else - W_HOME_AWAY cfg in
  1.0 + delta.

Definition game_total_multiplier (i : Inputs) : float :=
  let rel := (game_total_ou i - LEAGUE_AVG_GAME_TOTAL cfg)
             / LEAGUE_AVG_GAME_TOTAL cfg in
  1.0 + rel * W_GAME_TOTAL cfg.

Definition team_total_multiplier (i : Inputs) : float :=
  let rel := (team_total_ou i - LEAGUE_AVG_TEAM_TOTAL cfg)
             / LEAGUE_AVG_TEAM_TOTAL cfg in
  1.0 + rel * W_TEAM_TOTAL cfg.

Definition defense_vs_pos_multiplier (i : Inputs) : float :=
  let rel :=
    if LEAGUE_BASE_PTS_ALLOWED_POS cfg >? 0.0
    then (opp_pts_allowed_vs_pos i - LEAGUE_BASE_PTS_ALLOWED_POS cfg)
         / LEAGUE_BASE_PTS_ALLOWED_POS cfg
    else 0.0 in
  1.0 + rel * W_DEF_VS_POS cfg.

Definition recent_form_multiplier (i : Inputs) : float :=
  if (W_RECENT_FORM cfg =? 0.0) || (season_avg_pts i <=? 0.0) then 1.0
  else
    let rel := (recent_avg_pts i - season_avg_pts i) / season_avg_pts i in
    1.0 + rel * W_RECENT_FORM cfg.

Definition minutes_trend_multiplier (i : Inputs) : float :=
  if (W_MINUTES_TREND cfg =? 0.0) || (season_avg_minutes i <=? 0.0) then 1.0
  else
    let rel := (expected_minutes i - season_avg_minutes i)
               / season_avg_minutes i in
    1.0 + rel * W_MINUTES_TREND cfg.

Definition pace_multiplier (i : Inputs) : float :=
  if (W_PACE cfg =? 0.0) || (LEAGUE_AVG_PACE cfg <=? 0.0) then 1.0
  else
    let rel := (matchup_pace i - LEAGUE_AVG_PACE cfg)
               / LEAGUE_AVG_PACE cfg in
    1.0 + rel * W_PACE cfg.

Definition b2b_multiplier (i : Inputs) : float :=
  if negb (truthy (is_back_to_back i)) || (W_B2B_PENALTY cfg <=? 0.0)
  then 1.0
  else 1.0 - W_B2B_PENALTY cfg.

Definition project (i : Inputs) : Output :=
  let out_base_points := base_points i in
  let out_mult_homeaway := homeaway_multiplier i in
  let out_mult_game_total := game_total_multiplier i in
  let out_mult_team_total := team_total_multiplier i in
  let out_mult_def_pos := defense_vs_pos_multiplier i in
  let out_mult_recent := recent_form_multiplier i in
  let out_mult_minutes := minutes_trend_multiplier i in
  let out_mult_pace := pace_multiplier i in
  let out_mult_b2b := b2b_multiplier i in
  let out_uncapped_multiplier :=
    out_mult_homeaway *
    out_mult_game_total *
    out_mult_team_total *
    out_mult_def_pos *
    out_mult_recent *
    out_mult_minutes *
    out_mult_pace *
    out_mult_b2b in
  let out_final_multiplier :=
    clamp out_uncapped_multiplier (MULT_MIN cfg) (MULT_MAX cfg) in
  let out_projection := out_base_points * out_final_multiplier in
  Out.mkOutput out_base_points out_mult_homeaway out_mult_game_total
    out_mult_team_total out_mult_def_pos out_mult_recent out_mult_minutes
    out_mult_pace out_mult_b2b out_uncapped_multiplier out_final_multiplier
    out_projection.
End Engine.

(** The program as built: IEEE division and the shipped constants. *)
Definition run (i : Inputs) : Output := project PrimFloat.div shipped i.

(** ** Inputs used in examples *)

(** The scenario of the specification: every deviation is zero, the player
    is at home and not on a back-to-back. *)
Definition scenario : Inputs := {|
  player_name := "Player";
  player_line_pts := 25.0;
  season_avg_pts := 23.0;
  is_home := 1;
  game_total_ou := 229.0;
  team_total_ou := 114.5;
  opp_pts_allowed_vs_pos := 23.0;
  recent_avg_pts := 23.0;
  season_avg_minutes := 34.0;
  expected_minutes := 34.0;
  matchup_pace := 99.5;
  is_back_to_back := 0
|}.

(** A record of finite numbers on which the product of the multipliers is
    not a number: the two totals are large enough for the running product
    to overflow to [+infinity], and the minutes make the minutes-trend
    multiplier exactly zero. *)
Definition overflow_times_zero : Inputs := {|
  player_name := "Player";
  player_line_pts := 25.0;
  season_avg_pts := 23.0;
  is_home := 1;
  game_total_ou := 1.7e308;
  team_total_ou := 1.7e308;
  opp_pts_allowed_vs_pos := 23.0;
  recent_avg_pts := 23.0;
  season_avg_minutes := 1.0;
  expected_minutes := -9.0;
  matchup_pace := 99.5;
  is_back_to_back := 0
|}.

(** ** Records that differ from another in one place *)

Definition with_player_line_pts (l : float) (i : Inputs) : Inputs :=
  mkInputs (player_name i) l (season_avg_pts i) (is_home i)
    (game_total_ou i) (team_total_ou i) (opp_pts_allowed_vs_pos i)
    (recent_avg_pts i) (season_avg_minutes i) (expected_minutes i)
    (matchup_pace i) (is_back_to_back i).

Definition with_player_name (n : string) (i : Inputs) : Inputs :=
  mkInputs n (player_line_pts i) (season_avg_pts i) (is_home i)
    (game_total_ou i) (team_total_ou i) (opp_pts_allowed_vs_pos i)
    (recent_avg_pts i) (season_avg_minutes i) (expected_minutes i)
    (matchup_pace i) (is_back_to_back i).

Definition on_back_to_back (i : Inputs) : Inputs :=
  mkInputs (player_name i) (player_line_pts i) (season_avg_pts i) (is_home i)
    (game_total_ou i) (team_total_ou i) (opp_pts_allowed_vs_pos i)
    (recent_avg_pts i) (season_avg_minutes i) (expected_minutes i)
    (matchup_pace i) 1.

Definition with_averages (s r : float) (i : Inputs) : Inputs :=
  mkInputs (player_name i) (player_line_pts i) s (is_home i)
    (game_total_ou i) (team_total_ou i) (opp_pts_allowed_vs_pos i)
    r (season_avg_minutes i) (expected_minutes i)
    (matchup_pace i) (is_back_to_back i).

(** The input contract of the specification: every numeric field is a
    finite number. *)
Definition finite_inputs (i : Inputs) : bool :=
  is_finite (player_line_pts i) && is_finite (season_avg_pts i)
  && is_finite (game_total_ou i) && is_finite (team_total_ou i)
  && is_finite (opp_pts_allowed_vs_pos i) && is_finite (recent_avg_pts i)
  && is_finite (season_avg_minutes i) && is_finite (expected_minutes i)
  && is_finite (matchup_pace i).

(** ** Sign classes of a binary64 value *)

Module Sign.

(** Zero of either sign, or a positive finite or infinite value. *)
Definition nonneg (x : spec_float) : bool :=
  match x with
  | S754_zero _ => true
  | S754_infinity s => negb s
  | S754_nan => false
  | S754_finite s _ _ => negb s
  end.

(** A positive finite value. *)
Definition pos_finite (x : spec_float) : bool :=
  match x with
  | S754_finite false _ _ => true
  | _ => false
  end.

(** A value that carries the sign [s] and is not a NaN. *)
Definition signed (s : bool) (x : spec_float) : Prop :=
  match x with
  | S754_zero s' | S754_infinity s' | S754_finite s' _ _ => s' = s
  | S754_nan => False
  end.

End Sign.

(** ** The rational value of a double *)

(** The rational number a finite double stands for. *)
Definition SF2Q (x : spec_float) : option Q :=
  match x with
  | S754_zero _ => Some 0%Q
  | S754_finite s m e =>
      Some (inject_Z (cond_Zopp s (Zpos m)) * Qpower (inject_Z 2) e)%Q
  | S754_infinity _ | S754_nan => None
  end.

Definition to_Q (x : float) : option Q := SF2Q (Prim2SF x).

(** [within x q eps]: [x] is finite and at most [eps] away from [q]. *)
Definition within (x : float) (q eps : Q) : bool :=
  match to_Q x with
  | Some v => Qle_bool (Qabs (v - q)) eps
  | None => false
  end.

(** ** More records and constants for examples *)

Definition with_recent_avg_pts (r : float) (i : Inputs) : Inputs :=
  with_averages (season_avg_pts i) r i.

Definition with_expected_minutes (m : float) (i : Inputs) : Inputs :=
  mkInputs (player_name i) (player_line_pts i) (season_avg_pts i) (is_home i)
    (game_total_ou i) (team_total_ou i) (opp_pts_allowed_vs_pos i)
    (recent_avg_pts i) (season_avg_minutes i) m
    (matchup_pace i) (is_back_to_back i).

(** Every contextual input far above its baseline. *)
Definition all_high : Inputs := {|
  player_name := "Player";
  player_line_pts := 25.0;
  season_avg_pts := 23.0;
  is_home := 1;
  game_total_ou := 458.0;
  team_total_ou := 229.0;
  opp_pts_allowed_vs_pos := 46.0;
  recent_avg_pts := 46.0;
  season_avg_minutes := 24.0;
  expected_minutes := 48.0;
  matchup_pace := 199.0;
  is_back_to_back := 0
|}.

(** An away game on a back-to-back with every contextual input at zero. *)
Definition all_low : Inputs := {|
  player_name := "Player";
  player_line_pts := 25.0;
  season_avg_pts := 23.0;
  is_home := 0;
  game_total_ou := 0.0;
  team_total_ou := 0.0;
  opp_pts_allowed_vs_pos := 0.0;
  recent_avg_pts := 0.0;
  season_avg_minutes := 34.0;
  expected_minutes := 0.0;
  matchup_pace := 0.0;
  is_back_to_back := 1
|}.

(** A player without season minutes on record. *)
Definition no_season_minutes : Inputs := {|
  player_name := "Player";
  player_line_pts := 25.0;
  season_avg_pts := 23.0;
  is_home := 1;
  game_total_ou := 229.0;
  team_total_ou := 114.5;
  opp_pts_allowed_vs_pos := 23.0;
  recent_avg_pts := 23.0;
  season_avg_minutes := 0.0;
  expected_minutes := 30.0;
  matchup_pace := 99.5;
  is_back_to_back := 0
|}.

(** The constants with the optional extras switched off, as the source
    suggests: "set their weights to 0.0 to disable". *)
Definition optional_off : Config :=
  mkConfig (W_BASE_LINE shipped) (W_BASE_SEASON_AVG shipped)
    (W_HOME_AWAY shipped) (W_GAME_TOTAL shipped) (W_TEAM_TOTAL shipped)
    (W_DEF_VS_POS shipped) 0.0 0.0 0.0 0.0
    (LEAGUE_AVG_GAME_TOTAL shipped) (LEAGUE_AVG_TEAM_TOTAL shipped)
    (LEAGUE_AVG_PACE shipped) (LEAGUE_BASE_PTS_ALLOWED_POS shipped)
    (MULT_MIN shipped) (MULT_MAX shipped).

(** A division that gives up on a non-positive divisor. *)
Definition checked_div (x y : float) : float :=
  if y <=? 0.0 then nan else PrimFloat.div x y.

(** ** The name buffer of [main]

    [main] reads the player name with [fgets] into [char namebuf[128]] and
    then removes the newline in place:
    [for (i = 0; namebuf[i]; ++i)
       if (namebuf[i] == '\n') { namebuf[i] = 0; break; }].
    The buffer is the list of its bytes.  The loop walks it from the front,
    so the recursion is on the rest of the buffer; [fgets] leaves a NUL
    inside the buffer, so the walk stops before the buffer ends. *)

Definition NUL : ascii := "000"%char.
Definition LF : ascii := "010"%char.

Fixpoint strip_newline (buf : list ascii) : list ascii :=
  match buf with
  | [] => []
  | c :: rest =>
      if Ascii.eqb c NUL then buf
      else if Ascii.eqb c LF then NUL :: rest
      else c :: strip_newline rest
  end.

(** The C string a [char *] to the buffer designates, as [printf("%s")]
    reads [in->player_name]: the bytes before the first NUL. *)
Fixpoint c_string (buf : list ascii) : list ascii :=
  match buf with
  | [] => []
  | c :: rest => if Ascii.eqb c NUL then [] else c :: c_string rest
  end.

(** A buffer as [fgets] leaves it after the line "LeBron James". *)
Definition typed_name : list ascii :=
  list_ascii_of_string "LeBron James" ++ [LF; NUL; "x"%char; "y"%char].

(** ** Fused multiply-add

    C lets a compiler contract [a * b + c] into one fused operation that
    rounds once.  [fma] is that operation on the sign/mantissa/exponent
    view: the product of two finite values is exact, it is aligned with
    the third value and the sum is rounded once; in every other case the
    product is exact or special and the two-step result is the fused one.
    The two ways of contracting the base blend follow. *)

Definition SFfma (x y z : spec_float) : spec_float :=
  match x, y, z with
  | S754_finite sx mx ex, S754_finite sy my ey, S754_finite sz mz ez =>
      let ep := (ex + ey)%Z in
      let e := Z.min ep ez in
      binary_normalize prec emax
        (cond_Zopp (xorb sx sy) (Zpos (fst (shl_align (mx * my) ep e)))
         + cond_Zopp sz (Zpos (fst (shl_align mz ez e))))%Z
        e false
  | S754_finite _ _ _, S754_finite _ _ _, S754_zero _ => SF64mul x y
  | _, _, _ => SF64add (SF64mul x y) z
  end.

Definition fma (x y z : float) : float :=
  SF2Prim (SFfma (Prim2SF x) (Prim2SF y) (Prim2SF z)).

Definition base_points_fused_line (cfg : Config) (i : Inputs) : float :=
  fma (W_BASE_LINE cfg) (player_line_pts i)
      (W_BASE_SEASON_AVG cfg * season_avg_pts i).

Definition base_points_fused_season (cfg : Config) (i : Inputs) : float :=
  fma (W_BASE_SEASON_AVG cfg) (season_avg_pts i)
      (W_BASE_LINE cfg * player_line_pts i).

(** ** Facts about binary64 values

    The primitive operations are specified by the library on [spec_float],
    the sign/mantissa/exponent view of a binary64 value.  The lemmas below
    are the part of IEEE arithmetic the program's properties rest on. *)

Module SF.

Lemma compare_antisym (x y : spec_float) :
  SFcompare y x = option_map CompOpp (SFcompare x y).
Proof.
  destruct x as [sx|sx| |sx mx ex], y as [sy|sy| |sy my ey]; simpl;
    try destruct sx; try destruct sy; simpl; try reflexivity;
    rewrite (Z.compare_antisym ex ey);
    destruct (ex ?= ey)%Z; simpl; try reflexivity;
    fold (Pos.compare my mx); fold (Pos.compare mx my);
    rewrite (Pos.compare_antisym mx my);
    try rewrite CompOpp_involutive; reflexivity.
Qed.

Lemma compare_refl (x : spec_float) :
  x <> S754_nan -> SFcompare x x = Some Eq.
Proof.
  destruct x as [s|s| |s m e]; simpl; intros H;
    try destruct s; try reflexivity; try congruence;
    rewrite Z.compare_refl; fold (Pos.compare m m);
    rewrite Pos.compare_refl; reflexivity.
Qed.

Lemma compare_none (x y : spec_float) :
  SFcompare x y = None <-> x = S754_nan \/ y = S754_nan.
Proof.
  split.
  - destruct x as [sx|sx| |sx mx ex], y as [sy|sy| |sy my ey]; simpl;
      intros H; try discriminate H; auto.
  - intros [-> | ->]; [reflexivity|].
    destruct x; reflexivity.
Qed.

(** Rounding never turns a non-negative mantissa into a negative one. *)
Lemma iter_pos_inv {A : Type} (P : A -> Prop) (f : A -> A) :
  (forall a, P a -> P (f a)) ->
  forall n a, P a -> P (iter_pos f n a).
Proof.
  intros Hf. induction n as [n IH|n IH|]; intros a Ha; simpl; auto.
Qed.

Lemma shr_1_nonneg (r : shr_record) :
  (0 <= shr_m r)%Z -> (0 <= shr_m (shr_1 r))%Z.
Proof.
  destruct r as [m b s]; simpl.
  destruct m as [|p|p]; simpl; intros H; try lia;
    destruct p; simpl; lia.
Qed.

Lemma shr_nonneg (r : shr_record) (e n : Z) :
  (0 <= shr_m r)%Z -> (0 <= shr_m (fst (shr r e n)))%Z.
Proof.
  intros H. unfold shr. destruct n as [|p|p]; simpl; auto.
  apply (iter_pos_inv (fun r => 0 <= shr_m r)%Z); auto using shr_1_nonneg.
Qed.

Lemma shr_fexp_nonneg (prec emax m e : Z) (l : location) :
  (0 <= m)%Z -> (0 <= shr_m (fst (shr_fexp prec emax m e l)))%Z.
Proof.
  intros H. unfold shr_fexp. apply shr_nonneg.
  destruct l as [|[ | | ]]; simpl; exact H.
Qed.

Lemma round_nearest_even_nonneg (m : Z) (l : location) :
  (0 <= m)%Z -> (0 <= round_nearest_even m l)%Z.
Proof.
  intros H. destruct l as [|[ | | ]]; simpl; try lia.
  destruct (Z.even m); lia.
Qed.

Lemma binary_round_aux_signed (prec emax : Z) (s : bool) (m e : Z)
      (l : location) :
  (0 <= m)%Z -> Sign.signed s (binary_round_aux prec emax s m e l).
Proof.
  intros H. unfold binary_round_aux.
  pose proof (shr_fexp_nonneg prec emax m e l H) as H1.
  destruct (shr_fexp prec emax m e l) as [r1 e1]; simpl in H1.
  pose proof (shr_fexp_nonneg prec emax
    (round_nearest_even (shr_m r1) (loc_of_shr_record r1)) e1 loc_Exact
    (round_nearest_even_nonneg _ _ H1)) as H2.
  destruct (shr_fexp prec emax _ e1 loc_Exact) as [r2 e2]; simpl in H2.
  destruct (shr_m r2) as [|p|p]; simpl; try reflexivity; try lia.
  destruct (e2 <=? emax - prec)%Z; reflexivity.
Qed.

Lemma binary_round_signed (prec emax : Z) (s : bool) (m : positive)
      (e : Z) :
  Sign.signed s (binary_round prec emax s m e).
Proof.
  unfold binary_round.
  destruct (shl_align m e _) as [mz ez].
  apply binary_round_aux_signed. lia.
Qed.

Lemma signed_false_nonneg (x : spec_float) :
  Sign.signed false x -> Sign.nonneg x = true.
Proof. destruct x; simpl; intros H; subst; auto; contradiction. Qed.

(** Products and sums of non-negative values are non-negative, as long
    as the product is not [0 * infinity]. *)
Lemma mul_pos_finite_nonneg (x y : spec_float) :
  Sign.pos_finite x = true -> Sign.nonneg y = true ->
  Sign.nonneg (SF64mul x y) = true.
Proof.
  destruct x as [sx|sx| |[|] mx ex]; simpl; try discriminate. intros _.
  destruct y as [sy|[|]| |[|] my ey]; simpl; try discriminate; auto.
  intros _. apply signed_false_nonneg.
  apply (binary_round_aux_signed prec emax false). lia.
Qed.

Lemma mul_nonneg_pos_finite (x y : spec_float) :
  Sign.nonneg x = true -> Sign.pos_finite y = true ->
  Sign.nonneg (SF64mul x y) = true.
Proof.
  destruct y as [sy|sy| |[|] my ey]; simpl; try discriminate.
  destruct x as [sx|[|]| |[|] mx ex]; simpl; try discriminate; auto.
  intros _ _. apply signed_false_nonneg.
  apply (binary_round_aux_signed prec emax false). lia.
Qed.

Lemma add_nonneg (x y : spec_float) :
  Sign.nonneg x = true -> Sign.nonneg y = true ->
  Sign.nonneg (SF64add x y) = true.
Proof.
  destruct x as [sx|[|]| |[|] mx ex]; simpl; try discriminate;
    destruct y as [sy|[|]| |[|] my ey]; simpl; try discriminate; auto.
  - destruct sx, sy; reflexivity.
  - intros _ _. apply signed_false_nonneg.
    apply binary_round_signed.
Qed.

(** [x - x] is [+0] for every finite [x]. *)
Lemma sub_diag_finite (s : bool) (m : positive) (e : Z) :
  SF64sub (S754_finite s m e) (S754_finite s m e) = S754_zero false.
Proof.
  unfold SF64sub, SFsub. rewrite Z.sub_diag. reflexivity.
Qed.

End SF.

(** ** Comparisons on doubles *)

Lemma is_nan_spec (x : float) : is_nan x = true <-> Prim2SF x = S754_nan.
Proof.
  unfold is_nan. rewrite eqb_spec. unfold SFeqb. split.
  - intros H. destruct (Prim2SF x) as [s|s| |s m e] eqn:E; auto;
      rewrite SF.compare_refl in H by discriminate; discriminate.
  - intros ->. reflexivity.
Qed.

Lemma is_nan_false (x : float) : is_nan x = false <-> Prim2SF x <> S754_nan.
Proof.
  rewrite <- is_nan_spec. destruct (is_nan x); split; congruence.
Qed.

Lemma leb_refl (x : float) : is_nan x = false -> (x <=? x) = true.
Proof.
  rewrite is_nan_false, leb_spec. intros H. unfold SFleb.
  rewrite SF.compare_refl by assumption. reflexivity.
Qed.

Lemma leb_not_nan (x y : float) :
  (x <=? y) = true -> is_nan x = false /\ is_nan y = false.
Proof.
  rewrite leb_spec, !is_nan_false. unfold SFleb. intros H.
  split; intros E; rewrite E in H; simpl in H;
    [|destruct (Prim2SF x)]; discriminate.
Qed.

Lemma ltb_false_leb (x y : float) :
  is_nan x = false -> is_nan y = false ->
  (x <? y) = false -> (y <=? x) = true.
Proof.
  rewrite !is_nan_false, ltb_spec, leb_spec. unfold SFltb, SFleb.
  intros Hx Hy. rewrite (SF.compare_antisym (Prim2SF x) (Prim2SF y)).
  destruct (SFcompare (Prim2SF x) (Prim2SF y)) as [[ | | ]|] eqn:E; simpl;
    try reflexivity; try discriminate.
  apply SF.compare_none in E. tauto.
Qed.

Lemma leb_true_ltb_false (x y : float) :
  (x <=? y) = true -> (y <? x) = false.
Proof.
  rewrite ltb_spec, leb_spec. unfold SFltb, SFleb.
  rewrite (SF.compare_antisym (Prim2SF x) (Prim2SF y)).
  destruct (SFcompare (Prim2SF x) (Prim2SF y)) as [[ | | ]|]; simpl;
    try reflexivity; discriminate.
Qed.

Lemma leb_zero_nonneg (x : float) :
  (0.0 <=? x) = Sign.nonneg (Prim2SF x).
Proof.
  rewrite leb_spec. change (Prim2SF 0.0) with (S754_zero false).
  destruct (Prim2SF x) as [s|[|]| |[|] m e]; reflexivity.
Qed.

(** [clamp] lets a NaN through: both of its comparisons are false on it. *)
Lemma clamp_nan (x lo hi : float) :
  is_nan x = true -> clamp x lo hi = x.
Proof.
  rewrite is_nan_spec. intros H. unfold clamp, gtb.
  rewrite !ltb_spec, H. unfold SFltb. simpl.
  destruct (Prim2SF hi); reflexivity.
Qed.

Lemma clamp_cases (x lo hi : float) :
  clamp x lo hi = lo \/ clamp x lo hi = hi \/
  (clamp x lo hi = x /\ (x <? lo) = false /\ (hi <? x) = false).
Proof.
  unfold clamp, gtb.
  destruct (x <? lo); auto. destruct (hi <? x); auto.
Qed.

(** On anything but a NaN the result of [clamp] lies between the bounds. *)
Lemma clamp_bounds (x lo hi : float) :
  (lo <=? hi) = true -> is_nan x = false ->
  (lo <=? clamp x lo hi) = true /\ (clamp x lo hi <=? hi) = true.
Proof.
  intros Hb Hx. destruct (leb_not_nan _ _ Hb) as [Hlo Hhi].
  destruct (clamp_cases x lo hi) as [-> | [-> | (-> & H1 & H2)]].
  - split; [apply leb_refl|]; assumption.
  - split; [|apply leb_refl]; assumption.
  - split; apply ltb_false_leb; assumption.
Qed.

(** The identity of a double as a value is also its IEEE equality, except
    on a NaN, which compares unequal to itself. *)
Lemma eqb_refl (x : float) : is_nan x = false -> (x =? x) = true.
Proof.
  unfold is_nan. destruct (x =? x); [reflexivity | discriminate].
Qed.

(** ** Properties of [project] *)

(** C1. For every record, whatever the constants, the projection is the
    product of the base points and the final multiplier, and the final
    multiplier is the uncapped multiplier clamped to
    [[MULT_MIN, MULT_MAX]].  Equality is identity of the double. *)
Theorem projection_is_base_times_final
        (dv : float -> float -> float) (cfg : Config) (i : Inputs) :
  let out := project dv cfg i in
  Out.projection out = Out.base_points out * Out.final_multiplier out
  /\ Out.final_multiplier out
     = clamp (Out.uncapped_multiplier out) (MULT_MIN cfg) (MULT_MAX cfg)
  /\ Out.base_points out = base_points cfg i.
Proof.
  repeat split.
Qed.

(** The same relation read with C's [==]: it holds unless the projection
    is a NaN. *)
Lemma projection_eqb (i : Inputs) :
  is_nan (Out.projection (run i)) = false ->
  (Out.projection (run i)
   =? Out.base_points (run i) * Out.final_multiplier (run i)) = true.
Proof.
  intros H. apply eqb_refl in H. exact H.
Qed.

Lemma run_final_multiplier (i : Inputs) :
  Out.final_multiplier (run i)
  = clamp (Out.uncapped_multiplier (run i)) 0.70 1.40.
Proof. reflexivity. Qed.

Lemma run_projection (i : Inputs) :
  Out.projection (run i)
  = (0.60 * player_line_pts i + 0.40 * season_avg_pts i)
    * Out.final_multiplier (run i).
Proof. reflexivity. Qed.

(** C2, as stated, fails: on [overflow_times_zero], a record of finite
    numbers, the product of the multipliers is [infinity * 0], a NaN;
    [clamp] returns it unchanged, and a NaN is neither at least [MULT_MIN]
    nor at most [MULT_MAX]. *)
Lemma final_multiplier_escapes_bounds :
  finite_inputs overflow_times_zero = true
  /\ Out.mult_minutes (run overflow_times_zero) = 0.0
  /\ Out.uncapped_multiplier (run overflow_times_zero) = nan
  /\ Out.final_multiplier (run overflow_times_zero) = nan
  /\ (MULT_MIN shipped <=? Out.final_multiplier (run overflow_times_zero))
     = false
  /\ (Out.final_multiplier (run overflow_times_zero) <=? MULT_MAX shipped)
     = false.
Proof. vm_compute. repeat split. Qed.

(** C2, amended. For every record on which the uncapped multiplier is not
    a NaN, the final multiplier lies in the closed interval
    [[MULT_MIN, MULT_MAX] = [0.70, 1.40]]. *)
Theorem final_multiplier_in_bounds (i : Inputs) :
  is_nan (Out.uncapped_multiplier (run i)) = false ->
  (MULT_MIN shipped <=? Out.final_multiplier (run i)) = true
  /\ (Out.final_multiplier (run i) <=? MULT_MAX shipped) = true.
Proof.
  intros H. rewrite run_final_multiplier.
  apply clamp_bounds; [reflexivity | exact H].
Qed.

Lemma final_multiplier_in_bounds_witness :
  is_nan (Out.uncapped_multiplier (run scenario)) = false
  /\ (MULT_MIN shipped <=? Out.final_multiplier (run scenario)) = true
  /\ (Out.final_multiplier (run scenario) <=? MULT_MAX shipped) = true.
Proof.
  split; [reflexivity|].
  apply (final_multiplier_in_bounds scenario). reflexivity.
Defined.

(** When the uncapped multiplier is a NaN, so is the final one. *)
Lemma final_multiplier_nan (i : Inputs) :
  is_nan (Out.uncapped_multiplier (run i)) = true ->
  Out.final_multiplier (run i) = Out.uncapped_multiplier (run i).
Proof.
  intros H. rewrite run_final_multiplier. apply clamp_nan. exact H.
Qed.

(** Outside the NaN case the final multiplier is a positive finite
    double. *)
Lemma final_multiplier_pos_finite (i : Inputs) :
  is_nan (Out.uncapped_multiplier (run i)) = false ->
  Sign.pos_finite (Prim2SF (Out.final_multiplier (run i))) = true.
Proof.
  intros H. rewrite run_final_multiplier.
  set (u := Out.uncapped_multiplier (run i)) in *.
  destruct (clamp_cases u 0.70 1.40) as [-> | [-> | (-> & H1 & H2)]];
    try reflexivity.
  rewrite ltb_spec in H1, H2. apply is_nan_false in H.
  change (Prim2SF 0.70) with (S754_finite false 6305039478318694 (-53)) in H1.
  change (Prim2SF 1.40) with (S754_finite false 6305039478318694 (-52)) in H2.
  destruct (Prim2SF u) as [s|[|]| |[|] m e]; try reflexivity;
    try discriminate; congruence.
Qed.

(** The base blend of two non-negative drivers is non-negative. *)
Lemma base_points_nonneg (i : Inputs) :
  (0.0 <=? player_line_pts i) = true -> (0.0 <=? season_avg_pts i) = true ->
  Sign.nonneg (Prim2SF (0.60 * player_line_pts i + 0.40 * season_avg_pts i))
  = true.
Proof.
  rewrite !leb_zero_nonneg. intros Hl Hs.
  rewrite add_spec, !mul_spec.
  apply SF.add_nonneg; apply SF.mul_pos_finite_nonneg;
    solve [reflexivity | assumption].
Qed.

(** C10, as stated, fails: [overflow_times_zero] has a non-negative line
    and a non-negative season average, and its projection is a NaN, which
    is not [>= 0]. *)
Lemma projection_nan_on_nonneg_drivers :
  finite_inputs overflow_times_zero = true
  /\ (0.0 <=? player_line_pts overflow_times_zero) = true
  /\ (0.0 <=? season_avg_pts overflow_times_zero) = true
  /\ Out.projection (run overflow_times_zero) = nan
  /\ (0.0 <=? Out.projection (run overflow_times_zero)) = false.
Proof. vm_compute. repeat split. Qed.

(** C10, amended. For every record with [player_line_pts >= 0] and
    [season_avg_pts >= 0] on which the uncapped multiplier is not a NaN,
    the projection is non-negative. *)
Theorem projection_nonneg (i : Inputs) :
  (0.0 <=? player_line_pts i) = true ->
  (0.0 <=? season_avg_pts i) = true ->
  is_nan (Out.uncapped_multiplier (run i)) = false ->
  (0.0 <=? Out.projection (run i)) = true.
Proof.
  intros Hl Hs Hu. rewrite leb_zero_nonneg, run_projection, mul_spec.
  apply SF.mul_nonneg_pos_finite.
  - apply base_points_nonneg; assumption.
  - apply final_multiplier_pos_finite; assumption.
Qed.

Lemma projection_nonneg_witness :
  (0.0 <=? player_line_pts scenario) = true
  /\ (0.0 <=? season_avg_pts scenario) = true
  /\ is_nan (Out.uncapped_multiplier (run scenario)) = false
  /\ (0.0 <=? Out.projection (run scenario)) = true.
Proof.
  split; [reflexivity|]. split; [reflexivity|]. split; [reflexivity|].
  apply (projection_nonneg scenario); reflexivity.
Defined.

(** ** The product of the multipliers *)

(** C4. For every record, whatever the constants, the uncapped multiplier
    is the product of the eight multiplier fields, taken in the order
    home/away, game total, team total, defense vs position, recent form,
    minutes trend, pace, back-to-back; each field holds the result of its
    sub-calculation; and the base points are no factor of it: the sportsbook
    line and the two blend weights, which only the base points read, leave
    the product unchanged. *)
Theorem uncapped_is_product_of_eight
        (dv : float -> float -> float) (cfg : Config) (i : Inputs) :
  let out := project dv cfg i in
  Out.uncapped_multiplier out
  = Out.mult_homeaway out * Out.mult_game_total out
    * Out.mult_team_total out * Out.mult_def_pos out * Out.mult_recent out
    * Out.mult_minutes out * Out.mult_pace out * Out.mult_b2b out
  /\ (Out.mult_homeaway out = homeaway_multiplier cfg i
      /\ Out.mult_game_total out = game_total_multiplier dv cfg i
      /\ Out.mult_team_total out = team_total_multiplier dv cfg i
      /\ Out.mult_def_pos out = defense_vs_pos_multiplier dv cfg i
      /\ Out.mult_recent out = recent_form_multiplier dv cfg i
      /\ Out.mult_minutes out = minutes_trend_multiplier dv cfg i
      /\ Out.mult_pace out = pace_multiplier dv cfg i
      /\ Out.mult_b2b out = b2b_multiplier cfg i)
  /\ (forall l wl ws : float,
        Out.uncapped_multiplier
          (project dv (with_base_weights wl ws cfg)
                   (with_player_line_pts l i))
        = Out.uncapped_multiplier out).
Proof.
  repeat split.
Qed.

(** The base points do react to the line, so the independence above is
    not vacuous. *)
Lemma base_points_reads_line :
  Out.base_points (run (with_player_line_pts 30.0 scenario))
  <> Out.base_points (run scenario).
Proof.
  intros H. apply (f_equal Prim2SF) in H. vm_compute in H. discriminate H.
Qed.

(** ** Determinism and the player name *)

(** C9. Two records that agree on every numeric and boolean field, with
    any player names, give identical outputs. *)
Theorem project_ignores_player_name
        (dv : float -> float -> float) (cfg : Config) (i j : Inputs) :
  player_line_pts i = player_line_pts j ->
  season_avg_pts i = season_avg_pts j ->
  is_home i = is_home j ->
  game_total_ou i = game_total_ou j ->
  team_total_ou i = team_total_ou j ->
  opp_pts_allowed_vs_pos i = opp_pts_allowed_vs_pos j ->
  recent_avg_pts i = recent_avg_pts j ->
  season_avg_minutes i = season_avg_minutes j ->
  expected_minutes i = expected_minutes j ->
  matchup_pace i = matchup_pace j ->
  is_back_to_back i = is_back_to_back j ->
  project dv cfg i = project dv cfg j.
Proof.
  destruct i, j; simpl; intros; subst; reflexivity.
Qed.

Lemma project_ignores_player_name_witness :
  player_name (with_player_name "Someone Else" scenario)
  <> player_name scenario
  /\ run (with_player_name "Someone Else" scenario) = run scenario.
Proof.
  split; [discriminate|].
  apply (project_ignores_player_name PrimFloat.div shipped
           (with_player_name "Someone Else" scenario) scenario);
    reflexivity.
Defined.

(** ** The back-to-back multiplier *)

(** C6. If the flag is false (zero) or the penalty weight is [<= 0], the
    back-to-back multiplier is [1.0]; otherwise it is
    [1 - W_B2B_PENALTY].  It reads nothing of the record but the truth
    value of the flag. *)
Theorem b2b_multiplier_flat (cfg : Config) (i : Inputs) :
  (is_back_to_back i = 0%Z \/ (W_B2B_PENALTY cfg <=? 0.0) = true ->
   b2b_multiplier cfg i = 1.0)
  /\ (is_back_to_back i <> 0%Z -> (W_B2B_PENALTY cfg <=? 0.0) = false ->
      b2b_multiplier cfg i = 1.0 - W_B2B_PENALTY cfg)
  /\ (forall j : Inputs,
        truthy (is_back_to_back j) = truthy (is_back_to_back i) ->
        b2b_multiplier cfg j = b2b_multiplier cfg i).
Proof.
  unfold b2b_multiplier, truthy. repeat split.
  - intros [H | H].
    + rewrite H. reflexivity.
    + rewrite H, orb_true_r. reflexivity.
  - intros Hf Hw. apply Z.eqb_neq in Hf. rewrite Hf, Hw. reflexivity.
  - intros j ->. reflexivity.
Qed.

Lemma b2b_multiplier_flat_witness :
  b2b_multiplier shipped scenario = 1.0
  /\ b2b_multiplier (with_b2b_penalty (-0.03) shipped)
       (on_back_to_back scenario) = 1.0
  /\ b2b_multiplier shipped (on_back_to_back scenario) = 1.0 - 0.03.
Proof.
  split; [|split].
  - apply (proj1 (b2b_multiplier_flat shipped scenario)).
    left. reflexivity.
  - apply (proj1 (b2b_multiplier_flat (with_b2b_penalty (-0.03) shipped)
                    (on_back_to_back scenario))).
    right. reflexivity.
  - apply (proj1 (proj2 (b2b_multiplier_flat shipped
                           (on_back_to_back scenario)))).
    + discriminate.
    + reflexivity.
Defined.

(** ** Baseline guards *)

Lemma neq_of_Prim2SF (x y : float) : Prim2SF x <> Prim2SF y -> x <> y.
Proof. congruence. Qed.

Lemma not_finite_of_SF (r : float) :
  Prim2SF r = S754_nan \/ (exists s, Prim2SF r = S754_infinity s) ->
  is_finite r = false.
Proof.
  intros [H | [s H]]; unfold is_finite.
  - apply is_nan_spec in H. rewrite H. reflexivity.
  - unfold is_infinity. rewrite eqb_spec, abs_spec, H, orb_true_r.
    reflexivity.
Qed.

(** C3, as stated, fails: the team-total sub-calculation has no guard.
    With the baseline set to zero, or to a negative number, it divides all
    the same and the result is not the neutral [1.0]. *)
Lemma team_total_has_no_guard :
  (LEAGUE_AVG_TEAM_TOTAL (with_team_total_baseline 0.0 shipped) <=? 0.0)
  = true
  /\ team_total_multiplier PrimFloat.div
       (with_team_total_baseline 0.0 shipped) scenario = infinity
  /\ (LEAGUE_AVG_TEAM_TOTAL (with_team_total_baseline (-114.5) shipped)
      <=? 0.0) = true
  /\ team_total_multiplier PrimFloat.div
       (with_team_total_baseline (-114.5) shipped) scenario = 0.76
  /\ infinity <> 1.0 /\ 0.76 <> 1.0.
Proof.
  repeat split; apply neq_of_Prim2SF; vm_compute; discriminate.
Qed.

(** C3, amended. The team-total multiplier has the shape of the game-total
    one, without a guard: for every record and every baseline it is
    [1 + ((team_total - baseline) / baseline) * W_TEAM_TOTAL], the division
    always being performed; with a zero baseline and the shipped weight the
    result is infinite or a NaN for every record, never the neutral
    [1.0]. *)
Theorem team_total_divides_unguarded :
  (forall (dv : float -> float -> float) (cfg : Config) (i : Inputs),
      team_total_multiplier dv cfg i
      = 1.0 + dv (team_total_ou i - LEAGUE_AVG_TEAM_TOTAL cfg)
                 (LEAGUE_AVG_TEAM_TOTAL cfg) * W_TEAM_TOTAL cfg)
  /\ (forall i : Inputs,
        is_finite (team_total_multiplier PrimFloat.div
                     (with_team_total_baseline 0.0 shipped) i) = false).
Proof.
  split; [reflexivity|].
  intros i. apply not_finite_of_SF.
  unfold team_total_multiplier. simpl.
  rewrite add_spec, mul_spec, div_spec, sub_spec.
  change (Prim2SF 0.0) with (S754_zero false).
  change (Prim2SF 0.12) with (S754_finite false 8646911284551352 (-56)).
  change (Prim2SF 1.0) with (S754_finite false 4503599627370496 (-52)).
  destruct (Prim2SF (team_total_ou i)) as [[|]|s| |s m e]; simpl; eauto.
Qed.

(** The guard the specification has in mind sits in the next
    sub-calculation. *)

Lemma gtb_false_of_leb (b : float) : (b <=? 0.0) = true -> (b >? 0.0) = false.
Proof. apply leb_true_ltb_false. Qed.

Lemma defense_guarded (dv : float -> float -> float) (cfg : Config)
      (i : Inputs) :
  (LEAGUE_BASE_PTS_ALLOWED_POS cfg >? 0.0) = false ->
  defense_vs_pos_multiplier dv cfg i = 1.0 + 0.0 * W_DEF_VS_POS cfg.
Proof.
  intros H. unfold defense_vs_pos_multiplier. rewrite H. reflexivity.
Qed.

(** C5. With the defense baseline treated as configurable and set to any
    non-positive value, the defense-vs-position multiplier is exactly
    [1.0] for every record, and it is so whatever the division operator
    does: the division is not performed. *)
Theorem defense_baseline_guard
        (dv : float -> float -> float) (b : float) (i : Inputs) :
  (b <=? 0.0) = true ->
  defense_vs_pos_multiplier dv (with_def_baseline b shipped) i = 1.0.
Proof.
  intros H. rewrite defense_guarded.
  - reflexivity.
  - apply gtb_false_of_leb. exact H.
Qed.

Lemma defense_baseline_guard_witness :
  (0.0 <=? 0.0) = true
  /\ defense_vs_pos_multiplier (fun _ _ => nan)
       (with_def_baseline 0.0 shipped) scenario = 1.0
  /\ defense_vs_pos_multiplier PrimFloat.div
       (with_def_baseline (-23.0) shipped) scenario = 1.0.
Proof.
  split; [reflexivity|]. split.
  - apply (defense_baseline_guard (fun _ _ => nan) 0.0 scenario).
    reflexivity.
  - apply (defense_baseline_guard PrimFloat.div (-23.0) scenario).
    reflexivity.
Defined.

(** The guard does not depend on the shipped weight either: any finite
    weight gives [1.0 + 0.0 * w = 1.0]. *)
Lemma finite_cases (w : float) :
  is_finite w = true ->
  (exists s, Prim2SF w = S754_zero s)
  \/ (exists s m e, Prim2SF w = S754_finite s m e).
Proof.
  unfold is_finite, is_infinity. intros H.
  apply negb_true_iff, orb_false_iff in H. destruct H as [Hn Hi].
  apply is_nan_false in Hn. rewrite eqb_spec, abs_spec in Hi.
  change (Prim2SF infinity) with (S754_infinity false) in Hi.
  destruct (Prim2SF w) as [s|s| |s m e]; eauto; try congruence.
  discriminate Hi.
Qed.

Lemma defense_guard_any_weight (dv : float -> float -> float)
      (cfg : Config) (i : Inputs) :
  (LEAGUE_BASE_PTS_ALLOWED_POS cfg >? 0.0) = false ->
  is_finite (W_DEF_VS_POS cfg) = true ->
  defense_vs_pos_multiplier dv cfg i = 1.0.
Proof.
  intros Hb Hw. rewrite (defense_guarded dv cfg i Hb).
  apply Prim2SF_inj. rewrite add_spec, mul_spec.
  change (Prim2SF 0.0) with (S754_zero false).
  change (Prim2SF 1.0) with (S754_finite false 4503599627370496 (-52)).
  destruct (finite_cases _ Hw) as [[s ->] | (s & m & e & ->)];
    destruct s; reflexivity.
Qed.

(** With the shipped, positive baseline the division is performed: the
    result follows the division operator. *)
Lemma defense_divides_when_positive :
  defense_vs_pos_multiplier (fun _ _ => 1.0) shipped scenario
  <> defense_vs_pos_multiplier PrimFloat.div shipped scenario.
Proof.
  apply neq_of_Prim2SF. vm_compute. discriminate.
Qed.

(** ** Recent form *)

Lemma pos_finite_of_float (s : float) :
  (s >? 0.0) = true -> is_finite s = true ->
  exists m e, Prim2SF s = S754_finite false m e.
Proof.
  unfold gtb, is_finite, is_infinity.
  rewrite ltb_spec, eqb_spec, abs_spec.
  change (Prim2SF 0.0) with (S754_zero false).
  change (Prim2SF infinity) with (S754_infinity false).
  destruct (Prim2SF s) as [z|[|]| |[|] m e]; simpl;
    try discriminate; eauto.
  rewrite orb_true_r. discriminate.
Qed.

Lemma leb_false_of_gtb (s : float) : (s >? 0.0) = true -> (s <=? 0.0) = false.
Proof.
  intros H. destruct (s <=? 0.0) eqn:E; [|reflexivity].
  apply leb_true_ltb_false in E. unfold gtb in H. congruence.
Qed.

(** For a positive finite [s], [(s - s) / s] is [+0]. *)
Lemma zero_deviation (s : float) :
  (s >? 0.0) = true -> is_finite s = true -> (s - s) / s = 0.0.
Proof.
  intros Hp Hf. destruct (pos_finite_of_float s Hp Hf) as (m & e & E).
  apply Prim2SF_inj.
  rewrite div_spec, sub_spec, E, SF.sub_diag_finite. reflexivity.
Qed.

(** C7, as stated, fails: [+infinity] is a double greater than zero, one
    the prompt of [main] accepts; with the season and the recent average
    both at it, the deviation is [infinity - infinity] and the recent-form
    multiplier a NaN, not [1.0]. *)
Lemma recent_form_not_neutral_at_infinity :
  (season_avg_pts (with_averages infinity infinity scenario) >? 0.0) = true
  /\ recent_avg_pts (with_averages infinity infinity scenario)
     = season_avg_pts (with_averages infinity infinity scenario)
  /\ recent_form_multiplier PrimFloat.div shipped
       (with_averages infinity infinity scenario) = nan
  /\ recent_form_multiplier PrimFloat.div shipped
       (with_averages infinity infinity scenario) <> 1.0.
Proof.
  split; [reflexivity|]. split; [reflexivity|]. split; [reflexivity|].
  apply neq_of_Prim2SF. vm_compute. discriminate.
Qed.

(** C7, amended. For every record with a finite [season_avg_pts > 0] and
    [recent_avg_pts] equal to [season_avg_pts], the recent-form multiplier
    is exactly [1.0]. *)
Theorem recent_form_neutral (i : Inputs) :
  is_finite (season_avg_pts i) = true ->
  (season_avg_pts i >? 0.0) = true ->
  recent_avg_pts i = season_avg_pts i ->
  recent_form_multiplier PrimFloat.div shipped i = 1.0.
Proof.
  intros Hf Hp Hr. unfold recent_form_multiplier.
  rewrite (leb_false_of_gtb _ Hp), Hr, (zero_deviation _ Hp Hf).
  reflexivity.
Qed.

Lemma recent_form_neutral_witness :
  is_finite (season_avg_pts scenario) = true
  /\ (season_avg_pts scenario >? 0.0) = true
  /\ recent_avg_pts scenario = season_avg_pts scenario
  /\ recent_form_multiplier PrimFloat.div shipped scenario = 1.0.
Proof.
  split; [reflexivity|]. split; [reflexivity|]. split; [reflexivity|].
  apply (recent_form_neutral scenario); reflexivity.
Defined.

(** ** The scenario of the specification *)

(** C8, as stated, fails on two of its figures when each operation is
    rounded on its own, as the model has it.  [0.6 * 25] rounds to [15] and
    [0.4 * 23] to the double just above [9.2]; their sum lies halfway
    between two doubles and rounds to the one above the double nearest
    [24.2].  The projection inherits the excess. *)
Lemma scenario_decimals_not_met :
  Out.base_points (run scenario) <> 24.2
  /\ Out.projection (run scenario) <> 25.168
  /\ (Out.base_points (run scenario) =? 24.2) = false
  /\ (Out.projection (run scenario) =? 25.168) = false.
Proof.
  repeat split; apply neq_of_Prim2SF; vm_compute; discriminate.
Qed.

(** C8, amended. On the scenario record [project] returns every
    deviation-based multiplier and the back-to-back multiplier equal to
    [1.0], the home/away multiplier [1.04], the uncapped and the final
    multiplier [1.04], and base points and a projection within [1e-14] of
    [24.2] and [25.168]. *)
Theorem scenario_values :
  let out := run scenario in
  within (Out.base_points out) (242 # 10) (1 # 100000000000000) = true
  /\ Out.mult_homeaway out = 1.04
  /\ Out.mult_game_total out = 1.0
  /\ Out.mult_team_total out = 1.0
  /\ Out.mult_def_pos out = 1.0
  /\ Out.mult_recent out = 1.0
  /\ Out.mult_minutes out = 1.0
  /\ Out.mult_pace out = 1.0
  /\ Out.mult_b2b out = 1.0
  /\ Out.uncapped_multiplier out = 1.04
  /\ Out.final_multiplier out = 1.04
  /\ within (Out.projection out) (25168 # 1000) (1 # 100000000000000) = true.
Proof.
  vm_compute. repeat split.
Qed.

(** Which doubles the two figures are depends on how the blend is
    evaluated.  With each operation rounded on its own they are the
    doubles next above the ones nearest [24.2] and [25.168]. *)
Lemma scenario_figures_rounded_separately :
  Out.base_points (run scenario) = 24.200000000000003
  /\ Out.base_points (run scenario) = next_up 24.2
  /\ Out.projection (run scenario) = 25.168000000000003
  /\ Out.projection (run scenario) = next_up 25.168.
Proof.
  vm_compute. repeat split.
Qed.

(** The fused operation rounds once: it agrees with the two-step result
    when the product is exact, and keeps the bits that the rounded product
    [0.1 * 10 = 1] loses: the double [0.1] exceeds one tenth by [2^-54 / 10],
    so the exact result is [2^-54]. *)
Lemma fma_rounds_once :
  fma 2.0 3.0 4.0 = 2.0 * 3.0 + 4.0
  /\ 0.1 * 10.0 + (-1.0) = 0.0
  /\ fma 0.1 10.0 (-1.0) = 5.5511151231257827e-17
  /\ within (fma 0.1 10.0 (-1.0)) (1 # 18014398509481984) 0 = true.
Proof.
  vm_compute. repeat split.
Qed.

(** With the blend contracted into a fused multiply-add, either way, the
    base points are the double nearest [24.2] and their product with the
    multiplier [1.04] is the double nearest [25.168]; the bound of the
    amended statement holds there too. *)
Lemma scenario_figures_fused :
  base_points_fused_line shipped scenario = 24.2
  /\ base_points_fused_season shipped scenario = 24.2
  /\ 24.2 * 1.04 = 25.168
  /\ within 24.2 (242 # 10) (1 # 100000000000000) = true
  /\ within 25.168 (25168 # 1000) (1 # 100000000000000) = true.
Proof.
  vm_compute. repeat split.
Qed.

(** * Further properties of the program *)

(** ** The order of binary64 values *)

Ltac split_compares :=
  repeat match goal with
  | |- context [Z.compare ?a ?b] => destruct (Z.compare_spec a b)
  | |- context [Pos.compare_cont Eq ?a ?b] =>
      change (Pos.compare_cont Eq a b) with (Pos.compare a b);
      destruct (Pos.compare_spec a b)
  end.

Module SFOrder.

Lemma SFleb_trans (x y z : spec_float) :
  SFleb x y = true -> SFleb y z = true -> SFleb x z = true.
Proof.
  unfold SFleb.
  destruct x as [[|]|[|]| |[|] mx ex], y as [[|]|[|]| |[|] my ey],
           z as [[|]|[|]| |[|] mz ez]; simpl;
    try discriminate; try reflexivity;
    split_compares; simpl; try discriminate; try reflexivity;
    intros; exfalso; lia.
Qed.

End SFOrder.

Lemma leb_trans (x y z : float) :
  (x <=? y) = true -> (y <=? z) = true -> (x <=? z) = true.
Proof. rewrite !leb_spec. apply SFOrder.SFleb_trans. Qed.

Lemma ltb_leb (x y : float) : (x <? y) = true -> (x <=? y) = true.
Proof.
  rewrite ltb_spec, leb_spec. unfold SFltb, SFleb.
  destruct (SFcompare (Prim2SF x) (Prim2SF y)) as [[ | | ]|];
    try discriminate; reflexivity.
Qed.

Lemma ltb_not_nan (x y : float) :
  (x <? y) = true -> is_nan x = false /\ is_nan y = false.
Proof. intros H. apply leb_not_nan, ltb_leb, H. Qed.

Lemma leb_false_ltb (x y : float) :
  is_nan x = false -> is_nan y = false ->
  (x <=? y) = false -> (y <? x) = true.
Proof.
  rewrite !is_nan_false, ltb_spec, leb_spec. unfold SFltb, SFleb.
  intros Hx Hy. rewrite (SF.compare_antisym (Prim2SF x) (Prim2SF y)).
  destruct (SFcompare (Prim2SF x) (Prim2SF y)) as [[ | | ]|] eqn:E; simpl;
    try reflexivity; try discriminate.
  apply SF.compare_none in E. tauto.
Qed.

(** [x < y <= z] gives [x < z], and so does [x <= y < z]. *)
Lemma ltb_leb_trans (x y z : float) :
  (x <? y) = true -> (y <=? z) = true -> (x <? z) = true.
Proof.
  intros H1 H2. destruct (x <? z) eqn:E; [reflexivity|].
  destruct (ltb_not_nan _ _ H1) as [Hx _].
  destruct (leb_not_nan _ _ H2) as [_ Hz].
  apply ltb_false_leb in E; try assumption.
  pose proof (leb_trans _ _ _ H2 E) as H3.
  apply leb_true_ltb_false in H3. congruence.
Qed.

Lemma leb_ltb_trans (x y z : float) :
  (x <=? y) = true -> (y <? z) = true -> (x <? z) = true.
Proof.
  intros H1 H2. destruct (x <? z) eqn:E; [reflexivity|].
  destruct (leb_not_nan _ _ H1) as [Hx _].
  destruct (ltb_not_nan _ _ H2) as [_ Hz].
  apply ltb_false_leb in E; try assumption.
  pose proof (leb_trans _ _ _ E H1) as H3.
  apply leb_true_ltb_false in H3. congruence.
Qed.

Lemma is_finite_not_nan (x : float) : is_finite x = true -> is_nan x = false.
Proof.
  unfold is_finite. intros H. apply negb_true_iff, orb_false_iff in H.
  tauto.
Qed.

(** ** More on [clamp] *)

Lemma clamp_below (x lo hi : float) :
  (x <? lo) = true -> clamp x lo hi = lo.
Proof. intros H. unfold clamp. rewrite H. reflexivity. Qed.

Lemma clamp_above (x lo hi : float) :
  (lo <=? hi) = true -> (x >? hi) = true -> clamp x lo hi = hi.
Proof.
  intros Hb H. unfold clamp. rewrite H.
  replace (x <? lo) with false; [reflexivity|].
  symmetry. apply leb_true_ltb_false.
  apply leb_trans with hi; [assumption | apply ltb_leb, H].
Qed.

Lemma clamp_inside (x lo hi : float) :
  (lo <=? x) = true -> (x <=? hi) = true -> clamp x lo hi = x.
Proof.
  intros H1 H2. unfold clamp, gtb.
  rewrite (leb_true_ltb_false _ _ H1), (leb_true_ltb_false _ _ H2).
  reflexivity.
Qed.

(** X1. With [lo <= hi], clamping twice is clamping once, for every
    double, a NaN included. *)
Theorem clamp_idempotent (x lo hi : float) :
  (lo <=? hi) = true ->
  clamp (clamp x lo hi) lo hi = clamp x lo hi.
Proof.
  intros Hb. destruct (is_nan x) eqn:Hx.
  - rewrite (clamp_nan x lo hi Hx). apply clamp_nan, Hx.
  - destruct (clamp_bounds x lo hi Hb Hx) as [H1 H2].
    apply clamp_inside; assumption.
Qed.

Lemma clamp_idempotent_witness :
  (0.70 <=? 1.40) = true
  /\ clamp (clamp 2.5 0.70 1.40) 0.70 1.40 = clamp 2.5 0.70 1.40.
Proof.
  split; [reflexivity|].
  apply (clamp_idempotent 2.5 0.70 1.40). reflexivity.
Defined.

(** X2. With [lo <= hi], [clamp] is monotone: [x <= y] gives
    [clamp x lo hi <= clamp y lo hi]. *)
Theorem clamp_monotone (x y lo hi : float) :
  (lo <=? hi) = true -> (x <=? y) = true ->
  (clamp x lo hi <=? clamp y lo hi) = true.
Proof.
  intros Hb Hxy. destruct (leb_not_nan _ _ Hxy) as [Hx Hy].
  destruct (leb_not_nan _ _ Hb) as [Hlo Hhi].
  destruct (clamp_bounds y lo hi Hb Hy) as [Hy1 Hy2].
  destruct (x <? lo) eqn:E1.
  - rewrite (clamp_below _ _ _ E1). exact Hy1.
  - destruct (x >? hi) eqn:E2.
    + rewrite (clamp_above _ _ _ Hb E2).
      rewrite (clamp_above y lo hi Hb).
      * apply leb_refl, Hhi.
      * unfold gtb in *. apply ltb_leb_trans with x; assumption.
    + assert (Hc : clamp x lo hi = x).
      { unfold clamp. rewrite E1, E2. reflexivity. }
      rewrite Hc. unfold gtb in E2.
      destruct (y <? lo) eqn:E3.
      { pose proof (leb_ltb_trans _ _ _ Hxy E3). congruence. }
      destruct (y >? hi) eqn:E4.
      * rewrite (clamp_above _ _ _ Hb E4).
        apply ltb_false_leb; assumption.
      * unfold clamp. rewrite E3, E4. exact Hxy.
Qed.

Lemma clamp_monotone_witness :
  (0.70 <=? 1.40) = true /\ (0.5 <=? 1.2) = true
  /\ (clamp 0.5 0.70 1.40 <=? clamp 1.2 0.70 1.40) = true.
Proof.
  split; [reflexivity|]. split; [reflexivity|].
  apply (clamp_monotone 0.5 1.2 0.70 1.40); reflexivity.
Defined.

(** ** The final multiplier *)

Lemma project_final_multiplier
      (dv : float -> float -> float) (cfg : Config) (i : Inputs) :
  Out.final_multiplier (project dv cfg i)
  = clamp (Out.uncapped_multiplier (project dv cfg i))
          (MULT_MIN cfg) (MULT_MAX cfg).
Proof. reflexivity. Qed.

Lemma project_projection
      (dv : float -> float -> float) (cfg : Config) (i : Inputs) :
  Out.projection (project dv cfg i)
  = Out.base_points (project dv cfg i)
    * Out.final_multiplier (project dv cfg i).
Proof. reflexivity. Qed.

(** X3. When the uncapped multiplier already lies between the caps, the
    clamp changes nothing: the final multiplier is the uncapped one and
    the projection is the base points times it. *)
Theorem final_unchanged_within_bounds
        (dv : float -> float -> float) (cfg : Config) (i : Inputs) :
  (MULT_MIN cfg <=? Out.uncapped_multiplier (project dv cfg i)) = true ->
  (Out.uncapped_multiplier (project dv cfg i) <=? MULT_MAX cfg) = true ->
  Out.final_multiplier (project dv cfg i)
  = Out.uncapped_multiplier (project dv cfg i)
  /\ Out.projection (project dv cfg i)
     = Out.base_points (project dv cfg i)
       * Out.uncapped_multiplier (project dv cfg i).
Proof.
  intros H1 H2.
  assert (E : Out.final_multiplier (project dv cfg i)
              = Out.uncapped_multiplier (project dv cfg i)).
  { rewrite project_final_multiplier. apply clamp_inside; assumption. }
  split; [exact E|].
  rewrite project_projection, E. reflexivity.
Qed.

Lemma final_unchanged_within_bounds_witness :
  (MULT_MIN shipped <=? Out.uncapped_multiplier (run scenario)) = true
  /\ (Out.uncapped_multiplier (run scenario) <=? MULT_MAX shipped) = true
  /\ Out.final_multiplier (run scenario)
     = Out.uncapped_multiplier (run scenario).
Proof.
  split; [reflexivity|]. split; [reflexivity|].
  apply (final_unchanged_within_bounds PrimFloat.div shipped scenario);
    reflexivity.
Defined.

(** X4. With [MULT_MIN <= MULT_MAX], an uncapped multiplier above
    [MULT_MAX] gives a final multiplier of exactly [MULT_MAX], one below
    [MULT_MIN] exactly [MULT_MIN], and the projection is the base points
    times that cap. *)
Theorem final_saturates
        (dv : float -> float -> float) (cfg : Config) (i : Inputs) :
  (MULT_MIN cfg <=? MULT_MAX cfg) = true ->
  ((Out.uncapped_multiplier (project dv cfg i) >? MULT_MAX cfg) = true ->
   Out.final_multiplier (project dv cfg i) = MULT_MAX cfg
   /\ Out.projection (project dv cfg i)
      = Out.base_points (project dv cfg i) * MULT_MAX cfg)
  /\ ((Out.uncapped_multiplier (project dv cfg i) <? MULT_MIN cfg) = true ->
      Out.final_multiplier (project dv cfg i) = MULT_MIN cfg
      /\ Out.projection (project dv cfg i)
         = Out.base_points (project dv cfg i) * MULT_MIN cfg).
Proof.
  intros Hb. split; intros H.
  - assert (E : Out.final_multiplier (project dv cfg i) = MULT_MAX cfg).
    { rewrite project_final_multiplier. apply clamp_above; assumption. }
    split; [exact E|]. rewrite project_projection, E. reflexivity.
  - assert (E : Out.final_multiplier (project dv cfg i) = MULT_MIN cfg).
    { rewrite project_final_multiplier. apply clamp_below. exact H. }
    split; [exact E|]. rewrite project_projection, E. reflexivity.
Qed.

Lemma final_saturates_witness :
  (Out.uncapped_multiplier (run all_high) >? 1.40) = true
  /\ Out.final_multiplier (run all_high) = 1.40
  /\ (Out.uncapped_multiplier (run all_low) <? 0.70) = true
  /\ Out.final_multiplier (run all_low) = 0.70.
Proof.
  split; [reflexivity|]. split.
  - apply (proj1 (final_saturates PrimFloat.div shipped all_high eq_refl)).
    reflexivity.
  - split; [reflexivity|].
    apply (proj2 (final_saturates PrimFloat.div shipped all_low eq_refl)).
    reflexivity.
Defined.

(** X5. With [MULT_MIN <= MULT_MAX], the final multiplier is a NaN
    exactly when the uncapped multiplier is one: the clamp neither makes
    nor removes a NaN. *)
Theorem final_nan_iff_uncapped_nan
        (dv : float -> float -> float) (cfg : Config) (i : Inputs) :
  (MULT_MIN cfg <=? MULT_MAX cfg) = true ->
  is_nan (Out.final_multiplier (project dv cfg i))
  = is_nan (Out.uncapped_multiplier (project dv cfg i)).
Proof.
  intros Hb. rewrite project_final_multiplier.
  destruct (is_nan (Out.uncapped_multiplier (project dv cfg i))) eqn:H.
  - rewrite (clamp_nan _ _ _ H). exact H.
  - destruct (clamp_bounds _ _ _ Hb H) as [H1 _].
    apply leb_not_nan in H1. tauto.
Qed.

Lemma final_nan_iff_uncapped_nan_witness :
  is_nan (Out.final_multiplier (run overflow_times_zero)) = true
  /\ is_nan (Out.final_multiplier (run scenario)) = false.
Proof.
  unfold run. split.
  - rewrite (final_nan_iff_uncapped_nan PrimFloat.div shipped
               overflow_times_zero eq_refl). reflexivity.
  - rewrite (final_nan_iff_uncapped_nan PrimFloat.div shipped
               scenario eq_refl). reflexivity.
Defined.

(** ** Multiplying by one

    [x * 1.0] is [x] for every double: the product of the mantissas ends
    in 52 zero bits, which rounding shifts out again without loss. *)

Module SFExact.

Lemma iter_pos_nat {A : Type} (f : A -> A) (p : positive) (a : A) :
  iter_pos f p a = Nat.iter (Pos.to_nat p) f a.
Proof.
  revert a. induction p as [p IH|p IH|]; intros a; cbn [iter_pos].
  - rewrite !IH, Pos2Nat.inj_xI, Nat.iter_succ_r.
    replace (2 * Pos.to_nat p)%nat with (Pos.to_nat p + Pos.to_nat p)%nat
      by lia.
    rewrite Nat.iter_add. reflexivity.
  - rewrite !IH, Pos2Nat.inj_xO.
    replace (2 * Pos.to_nat p)%nat with (Pos.to_nat p + Pos.to_nat p)%nat
      by lia.
    rewrite Nat.iter_add. reflexivity.
  - reflexivity.
Qed.

Lemma shr_exact (n : nat) (m : positive) :
  Nat.iter n shr_1 (Build_shr_record (Zpos (Nat.iter n xO m)) false false)
  = Build_shr_record (Zpos m) false false.
Proof.
  induction n as [|n IH]; [reflexivity|].
  rewrite Nat.iter_succ_r. simpl Nat.iter at 2. simpl shr_1. exact IH.
Qed.

Lemma digits2_pos_shl (n : nat) (m : positive) :
  Zpos (digits2_pos (Nat.iter n xO m))
  = (Zpos (digits2_pos m) + Z.of_nat n)%Z.
Proof.
  induction n as [|n IH]; simpl Nat.iter.
  - lia.
  - simpl digits2_pos. lia.
Qed.

Lemma mul_pow2 (n : nat) (m : positive) :
  (m * Nat.iter n xO 1 = Nat.iter n xO m)%positive.
Proof.
  induction n as [|n IH]; simpl.
  - apply Pos.mul_1_r.
  - rewrite Pos.mul_xO_r, IH. reflexivity.
Qed.

Lemma shr_fexp_canonical (m : positive) (e : Z) :
  canonical_mantissa prec emax m e = true ->
  shr_fexp prec emax (Zpos m) e loc_Exact
  = (Build_shr_record (Zpos m) false false, e).
Proof.
  unfold canonical_mantissa. intros Hc. apply Z.eqb_eq in Hc.
  unfold shr_fexp, Zdigits2. rewrite Hc, Z.sub_diag. reflexivity.
Qed.

Lemma shr_fexp_shifted (n : nat) (m : positive) (e : Z) :
  canonical_mantissa prec emax m e = true ->
  shr_fexp prec emax (Zpos (Nat.iter (S n) xO m)) (e - Z.of_nat (S n))
    loc_Exact
  = (Build_shr_record (Zpos m) false false, e).
Proof.
  unfold canonical_mantissa. intros Hc. apply Z.eqb_eq in Hc.
  unfold shr_fexp, Zdigits2. rewrite digits2_pos_shl.
  replace (Z.pos (digits2_pos m) + Z.of_nat (S n) + (e - Z.of_nat (S n)))%Z
    with (Z.pos (digits2_pos m) + e)%Z by lia.
  rewrite Hc.
  replace (e - (e - Z.of_nat (S n)))%Z with (Z.pos (Pos.of_succ_nat n))
    by lia.
  unfold shr. rewrite iter_pos_nat, SuccNat2Pos.id_succ.
  unfold shr_record_of_loc. rewrite shr_exact.
  f_equal. lia.
Qed.

Lemma SFmul_one_r (x : spec_float) :
  valid_binary x = true ->
  SF64mul x (S754_finite false 4503599627370496 (-52)) = x.
Proof.
  destruct x as [s|s| |s m e]; simpl; intros Hv;
    try (rewrite xorb_false_r; reflexivity); try reflexivity.
  apply andb_true_iff in Hv. destruct Hv as [Hc Hb].
  unfold SF64mul, SFmul. rewrite xorb_false_r.
  change 4503599627370496%positive with (Nat.iter 52 xO 1%positive).
  rewrite mul_pow2.
  change (e + -52)%Z with (e - Z.of_nat 52)%Z.
  unfold binary_round_aux.
  rewrite (shr_fexp_shifted 51 m e Hc).
  cbn [shr_m loc_of_shr_record round_nearest_even].
  rewrite (shr_fexp_canonical m e Hc).
  cbn [shr_m]. rewrite Hb. reflexivity.
Qed.

End SFExact.

Lemma mul_one_r (x : float) : x * 1.0 = x.
Proof.
  apply Prim2SF_inj. rewrite mul_spec.
  change (Prim2SF 1.0) with (S754_finite false 4503599627370496 (-52)).
  apply SFExact.SFmul_one_r, Prim2SF_valid.
Qed.

(** ** A NaN never disappears in a product or a sum *)

Lemma mul_nan_l (x y : float) : is_nan x = true -> is_nan (x * y) = true.
Proof.
  rewrite !is_nan_spec, mul_spec. intros ->. reflexivity.
Qed.

Lemma mul_nan_r (x y : float) : is_nan y = true -> is_nan (x * y) = true.
Proof.
  rewrite !is_nan_spec, mul_spec. intros ->.
  destruct (Prim2SF x); reflexivity.
Qed.

Lemma add_nan_l (x y : float) : is_nan x = true -> is_nan (x + y) = true.
Proof.
  rewrite !is_nan_spec, add_spec. intros ->. reflexivity.
Qed.

Lemma add_nan_r (x y : float) : is_nan y = true -> is_nan (x + y) = true.
Proof.
  rewrite !is_nan_spec, add_spec. intros ->.
  destruct (Prim2SF x) as [[|]|[|]| |s m e]; reflexivity.
Qed.

(** ** Zero deviations *)

(** A zero deviation contributes nothing, whatever the finite weight. *)
Lemma neutral_term (w : float) :
  is_finite w = true -> 1.0 + 0.0 * w = 1.0.
Proof.
  intros Hw. apply Prim2SF_inj. rewrite add_spec, mul_spec.
  change (Prim2SF 0.0) with (S754_zero false).
  change (Prim2SF 1.0) with (S754_finite false 4503599627370496 (-52)).
  destruct (finite_cases _ Hw) as [[s ->] | (s & m & e & ->)];
    destruct s; reflexivity.
Qed.

(** The shape shared by the deviation-based multipliers, at a zero
    deviation from a positive finite reference value. *)
Lemma neutral_at (b w : float) :
  is_finite b = true -> (b >? 0.0) = true -> is_finite w = true ->
  1.0 + (b - b) / b * w = 1.0.
Proof.
  intros Hb Hp Hw. rewrite (zero_deviation b Hp Hb). apply neutral_term, Hw.
Qed.

Lemma gtb_of_leb_false (s : float) :
  is_finite s = true -> (s <=? 0.0) = false -> (s >? 0.0) = true.
Proof.
  intros Hf H. unfold gtb. apply leb_false_ltb; auto using is_finite_not_nan.
Qed.

(** The shape shared by the two multipliers that compare with a season
    value of the player, at a zero deviation: any finite season value and
    any finite weight. *)
Lemma neutral_vs_season (s w : float) :
  is_finite w = true -> is_finite s = true ->
  (if (w =? 0.0) || (s <=? 0.0) then 1.0 else 1.0 + (s - s) / s * w) = 1.0.
Proof.
  intros Hw Hs. destruct (w =? 0.0); [reflexivity|].
  destruct (s <=? 0.0) eqn:E; [reflexivity|]. simpl.
  apply neutral_at; auto using gtb_of_leb_false.
Qed.

(** X6. At its league baseline each of the four baseline-driven
    multipliers (game total, team total, defense vs position, pace) is
    exactly [1.0], for every positive finite baseline and every finite
    weight. *)
Theorem league_baseline_neutral (cfg : Config) (i : Inputs) :
  (game_total_ou i = LEAGUE_AVG_GAME_TOTAL cfg ->
   is_finite (LEAGUE_AVG_GAME_TOTAL cfg) = true ->
   (LEAGUE_AVG_GAME_TOTAL cfg >? 0.0) = true ->
   is_finite (W_GAME_TOTAL cfg) = true ->
   game_total_multiplier PrimFloat.div cfg i = 1.0)
  /\ (team_total_ou i = LEAGUE_AVG_TEAM_TOTAL cfg ->
      is_finite (LEAGUE_AVG_TEAM_TOTAL cfg) = true ->
      (LEAGUE_AVG_TEAM_TOTAL cfg >? 0.0) = true ->
      is_finite (W_TEAM_TOTAL cfg) = true ->
      team_total_multiplier PrimFloat.div cfg i = 1.0)
  /\ (opp_pts_allowed_vs_pos i = LEAGUE_BASE_PTS_ALLOWED_POS cfg ->
      is_finite (LEAGUE_BASE_PTS_ALLOWED_POS cfg) = true ->
      (LEAGUE_BASE_PTS_ALLOWED_POS cfg >? 0.0) = true ->
      is_finite (W_DEF_VS_POS cfg) = true ->
      defense_vs_pos_multiplier PrimFloat.div cfg i = 1.0)
  /\ (matchup_pace i = LEAGUE_AVG_PACE cfg ->
      is_finite (LEAGUE_AVG_PACE cfg) = true ->
      (LEAGUE_AVG_PACE cfg >? 0.0) = true ->
      is_finite (W_PACE cfg) = true ->
      pace_multiplier PrimFloat.div cfg i = 1.0).
Proof.
  repeat split.
  - intros E Hf Hp Hw. unfold game_total_multiplier. rewrite E.
    apply neutral_at; assumption.
  - intros E Hf Hp Hw. unfold team_total_multiplier. rewrite E.
    apply neutral_at; assumption.
  - intros E Hf Hp Hw. unfold defense_vs_pos_multiplier. rewrite E, Hp.
    apply neutral_at; assumption.
  - intros E Hf Hp Hw. unfold pace_multiplier. rewrite E.
    destruct ((W_PACE cfg =? 0.0) || (LEAGUE_AVG_PACE cfg <=? 0.0));
      [reflexivity | apply neutral_at; assumption].
Qed.

Lemma league_baseline_neutral_witness :
  game_total_multiplier PrimFloat.div shipped scenario = 1.0
  /\ team_total_multiplier PrimFloat.div shipped scenario = 1.0
  /\ defense_vs_pos_multiplier PrimFloat.div shipped scenario = 1.0
  /\ pace_multiplier PrimFloat.div shipped scenario = 1.0.
Proof.
  pose proof (league_baseline_neutral shipped scenario) as (G & T & D & P).
  split; [apply G; reflexivity|]. split; [apply T; reflexivity|].
  split; [apply D; reflexivity | apply P; reflexivity].
Defined.

(** X7. When the expected minutes equal the season minutes, the
    minutes-trend multiplier is exactly [1.0]: for every finite season
    value, positive or not, and every finite weight. *)
Theorem minutes_trend_neutral (cfg : Config) (i : Inputs) :
  is_finite (W_MINUTES_TREND cfg) = true ->
  is_finite (season_avg_minutes i) = true ->
  expected_minutes i = season_avg_minutes i ->
  minutes_trend_multiplier PrimFloat.div cfg i = 1.0.
Proof.
  intros Hw Hf E. unfold minutes_trend_multiplier. rewrite E.
  apply neutral_vs_season; assumption.
Qed.

Lemma minutes_trend_neutral_witness :
  is_finite (W_MINUTES_TREND shipped) = true
  /\ is_finite (season_avg_minutes scenario) = true
  /\ expected_minutes scenario = season_avg_minutes scenario
  /\ minutes_trend_multiplier PrimFloat.div shipped scenario = 1.0.
Proof.
  split; [reflexivity|]. split; [reflexivity|]. split; [reflexivity|].
  apply (minutes_trend_neutral shipped scenario); reflexivity.
Defined.

(** ** A record with every contextual input at its neutral value *)

Lemma project_uncapped_multiplier
      (dv : float -> float -> float) (cfg : Config) (i : Inputs) :
  Out.uncapped_multiplier (project dv cfg i)
  = homeaway_multiplier cfg i * game_total_multiplier dv cfg i
    * team_total_multiplier dv cfg i * defense_vs_pos_multiplier dv cfg i
    * recent_form_multiplier dv cfg i * minutes_trend_multiplier dv cfg i
    * pace_multiplier dv cfg i * b2b_multiplier cfg i.
Proof. reflexivity. Qed.

(** X8. When the totals, the defense rate and the pace sit at the league
    baselines, the recent average and the expected minutes equal the
    (finite) season values and the player is not on a back-to-back, only
    the home/away factor is left: the uncapped and the final multiplier
    are [1.04] at home and [0.96] away, whatever the line and the season
    average, and the projection is the base points times that. *)
Theorem neutral_record_projection (i : Inputs) :
  is_finite (season_avg_pts i) = true ->
  is_finite (season_avg_minutes i) = true ->
  game_total_ou i = 229.0 ->
  team_total_ou i = 114.5 ->
  opp_pts_allowed_vs_pos i = 23.0 ->
  recent_avg_pts i = season_avg_pts i ->
  expected_minutes i = season_avg_minutes i ->
  matchup_pace i = 99.5 ->
  is_back_to_back i = 0%Z ->
  let m := if truthy (is_home i) then 1.04 else 0.96 in
  Out.uncapped_multiplier (run i) = m
  /\ Out.final_multiplier (run i) = m
  /\ Out.projection (run i) = Out.base_points (run i) * m.
Proof.
  intros Hs Hm Eg Et Eo Er Ee Ep Eb m.
  assert (R : recent_form_multiplier PrimFloat.div shipped i = 1.0).
  { unfold recent_form_multiplier. rewrite Er.
    apply neutral_vs_season; [reflexivity | exact Hs]. }
  assert (M : minutes_trend_multiplier PrimFloat.div shipped i = 1.0).
  { unfold minutes_trend_multiplier. rewrite Ee.
    apply neutral_vs_season; [reflexivity | exact Hm]. }
  assert (U : Out.uncapped_multiplier (run i) = m).
  { unfold run. rewrite project_uncapped_multiplier, R, M.
    unfold game_total_multiplier, team_total_multiplier,
      defense_vs_pos_multiplier, pace_multiplier, b2b_multiplier,
      homeaway_multiplier.
    rewrite Eg, Et, Eo, Ep, Eb. subst m.
    destruct (truthy (is_home i)); reflexivity. }
  assert (F : Out.final_multiplier (run i) = m).
  { rewrite run_final_multiplier, U. subst m.
    destruct (truthy (is_home i)); reflexivity. }
  split; [exact U|]. split; [exact F|].
  unfold run. rewrite project_projection. fold (run i).
  rewrite F. reflexivity.
Qed.

Lemma neutral_record_projection_witness :
  Out.uncapped_multiplier (run scenario) = 1.04
  /\ Out.final_multiplier (run scenario) = 1.04
  /\ Out.projection (run scenario) = Out.base_points (run scenario) * 1.04.
Proof.
  apply (neutral_record_projection scenario); reflexivity.
Defined.

(** ** Guarded divisions *)

(** X9. The four guarded sub-calculations (defense vs position, recent
    form, minutes trend, pace) never divide by a divisor that is [<= 0]:
    two division operators that agree on all other divisors give the same
    multipliers, for every record and all constants. *)
Theorem guarded_divisions
        (dv dv' : float -> float -> float) (cfg : Config) (i : Inputs) :
  (forall x y : float, (y <=? 0.0) = false -> dv x y = dv' x y) ->
  defense_vs_pos_multiplier dv cfg i = defense_vs_pos_multiplier dv' cfg i
  /\ recent_form_multiplier dv cfg i = recent_form_multiplier dv' cfg i
  /\ minutes_trend_multiplier dv cfg i = minutes_trend_multiplier dv' cfg i
  /\ pace_multiplier dv cfg i = pace_multiplier dv' cfg i.
Proof.
  intros H. repeat split.
  - unfold defense_vs_pos_multiplier.
    destruct (LEAGUE_BASE_PTS_ALLOWED_POS cfg >? 0.0) eqn:E; [|reflexivity].
    rewrite H; [reflexivity|]. apply leb_false_of_gtb, E.
  - unfold recent_form_multiplier.
    destruct (W_RECENT_FORM cfg =? 0.0); [reflexivity|].
    destruct (season_avg_pts i <=? 0.0) eqn:E; [reflexivity|]. simpl.
    rewrite H; [reflexivity | exact E].
  - unfold minutes_trend_multiplier.
    destruct (W_MINUTES_TREND cfg =? 0.0); [reflexivity|].
    destruct (season_avg_minutes i <=? 0.0) eqn:E; [reflexivity|]. simpl.
    rewrite H; [reflexivity | exact E].
  - unfold pace_multiplier.
    destruct (W_PACE cfg =? 0.0); [reflexivity|].
    destruct (LEAGUE_AVG_PACE cfg <=? 0.0) eqn:E; [reflexivity|]. simpl.
    rewrite H; [reflexivity | exact E].
Qed.

Lemma checked_div_agrees (x y : float) :
  (y <=? 0.0) = false -> x / y = checked_div x y.
Proof. intros E. unfold checked_div. rewrite E. reflexivity. Qed.

Lemma guarded_divisions_witness :
  (forall x y : float, (y <=? 0.0) = false -> x / y = checked_div x y)
  /\ recent_form_multiplier PrimFloat.div shipped
       (with_averages 0.0 30.0 scenario)
     = recent_form_multiplier checked_div shipped
         (with_averages 0.0 30.0 scenario).
Proof.
  split; [exact checked_div_agrees|].
  apply (guarded_divisions PrimFloat.div checked_div shipped
           (with_averages 0.0 30.0 scenario) checked_div_agrees).
Defined.

(** X10. When the season average is [<= 0] (a player without one), the
    recent-form multiplier is [1.0] and the recent average plays no role:
    replacing it changes nothing in the output.  No division by the
    season average takes place. *)
Theorem recent_average_ignored_without_season_average
        (dv : float -> float -> float) (cfg : Config) (i : Inputs)
        (r : float) :
  (season_avg_pts i <=? 0.0) = true ->
  Out.mult_recent (project dv cfg i) = 1.0
  /\ project dv cfg (with_recent_avg_pts r i) = project dv cfg i.
Proof.
  intros H.
  assert (E : forall j, season_avg_pts j = season_avg_pts i ->
                        recent_form_multiplier dv cfg j = 1.0).
  { intros j Hj. unfold recent_form_multiplier.
    rewrite Hj, H, orb_true_r. reflexivity. }
  split; [apply E; reflexivity|].
  unfold project.
  rewrite (E (with_recent_avg_pts r i) eq_refl), (E i eq_refl).
  reflexivity.
Qed.

Lemma recent_average_ignored_witness :
  (season_avg_pts (with_averages 0.0 12.0 scenario) <=? 0.0) = true
  /\ run (with_recent_avg_pts 40.0 (with_averages 0.0 12.0 scenario))
     = run (with_averages 0.0 12.0 scenario).
Proof.
  split; [reflexivity|].
  apply (recent_average_ignored_without_season_average PrimFloat.div
           shipped (with_averages 0.0 12.0 scenario) 40.0).
  reflexivity.
Defined.

(** X11. When the season minutes are [<= 0], the minutes-trend
    multiplier is [1.0] and the expected minutes play no role. *)
Theorem expected_minutes_ignored_without_season_minutes
        (dv : float -> float -> float) (cfg : Config) (i : Inputs)
        (m : float) :
  (season_avg_minutes i <=? 0.0) = true ->
  Out.mult_minutes (project dv cfg i) = 1.0
  /\ project dv cfg (with_expected_minutes m i) = project dv cfg i.
Proof.
  intros H.
  assert (E : forall j, season_avg_minutes j = season_avg_minutes i ->
                        minutes_trend_multiplier dv cfg j = 1.0).
  { intros j Hj. unfold minutes_trend_multiplier.
    rewrite Hj, H, orb_true_r. reflexivity. }
  split; [apply E; reflexivity|].
  unfold project.
  rewrite (E (with_expected_minutes m i) eq_refl), (E i eq_refl).
  reflexivity.
Qed.

Lemma expected_minutes_ignored_witness :
  (season_avg_minutes no_season_minutes <=? 0.0) = true
  /\ run (with_expected_minutes 5.0 no_season_minutes)
     = run no_season_minutes.
Proof.
  split; [reflexivity|].
  apply (expected_minutes_ignored_without_season_minutes PrimFloat.div
           shipped no_season_minutes 5.0).
  reflexivity.
Defined.

(** ** Optional extras switched off *)

(** X12. With the three optional weights set to zero and the
    back-to-back penalty [<= 0], the four optional multipliers are [1.0]
    for every record and the uncapped multiplier is the product of the
    four remaining ones, unchanged by the factors of one. *)
Theorem optional_weights_zero_drop_out
        (dv : float -> float -> float) (cfg : Config) (i : Inputs) :
  (W_RECENT_FORM cfg =? 0.0) = true ->
  (W_MINUTES_TREND cfg =? 0.0) = true ->
  (W_PACE cfg =? 0.0) = true ->
  (W_B2B_PENALTY cfg <=? 0.0) = true ->
  Out.mult_recent (project dv cfg i) = 1.0
  /\ Out.mult_minutes (project dv cfg i) = 1.0
  /\ Out.mult_pace (project dv cfg i) = 1.0
  /\ Out.mult_b2b (project dv cfg i) = 1.0
  /\ Out.uncapped_multiplier (project dv cfg i)
     = homeaway_multiplier cfg i * game_total_multiplier dv cfg i
       * team_total_multiplier dv cfg i * defense_vs_pos_multiplier dv cfg i.
Proof.
  intros Hr Hm Hp Hb.
  assert (Er : recent_form_multiplier dv cfg i = 1.0).
  { unfold recent_form_multiplier. rewrite Hr. reflexivity. }
  assert (Em : minutes_trend_multiplier dv cfg i = 1.0).
  { unfold minutes_trend_multiplier. rewrite Hm. reflexivity. }
  assert (Ep : pace_multiplier dv cfg i = 1.0).
  { unfold pace_multiplier. rewrite Hp. reflexivity. }
  assert (Eb : b2b_multiplier cfg i = 1.0).
  { unfold b2b_multiplier. rewrite Hb, orb_true_r. reflexivity. }
  split; [exact Er|]. split; [exact Em|]. split; [exact Ep|].
  split; [exact Eb|].
  rewrite project_uncapped_multiplier, Er, Em, Ep, Eb, !mul_one_r.
  reflexivity.
Qed.

Lemma optional_weights_zero_drop_out_witness :
  Out.mult_recent (project PrimFloat.div optional_off all_low) = 1.0
  /\ Out.uncapped_multiplier (project PrimFloat.div optional_off all_low)
     = homeaway_multiplier optional_off all_low
       * game_total_multiplier PrimFloat.div optional_off all_low
       * team_total_multiplier PrimFloat.div optional_off all_low
       * defense_vs_pos_multiplier PrimFloat.div optional_off all_low.
Proof.
  pose proof (optional_weights_zero_drop_out PrimFloat.div optional_off
                all_low eq_refl eq_refl eq_refl eq_refl)
    as (R & _ & _ & _ & U).
  split; [exact R | exact U].
Defined.

(** ** A NaN among the core drivers *)

(** X13. If the sportsbook line or the season average is a NaN, so are
    the base points and the projection, whatever the other inputs and the
    constants: the clamp on the multiplier does not hide it. *)
Theorem nan_driver_gives_nan_projection
        (dv : float -> float -> float) (cfg : Config) (i : Inputs) :
  is_nan (player_line_pts i) = true \/ is_nan (season_avg_pts i) = true ->
  is_nan (Out.base_points (project dv cfg i)) = true
  /\ is_nan (Out.projection (project dv cfg i)) = true.
Proof.
  intros H.
  assert (Hb : is_nan (base_points cfg i) = true).
  { unfold base_points. destruct H as [H | H].
    - apply add_nan_l, mul_nan_r, H.
    - apply add_nan_r, mul_nan_r, H. }
  split; [exact Hb|].
  rewrite project_projection. apply mul_nan_l, Hb.
Qed.

Lemma nan_driver_gives_nan_projection_witness :
  is_nan (player_line_pts (with_player_line_pts nan scenario)) = true
  /\ is_nan (Out.projection (run (with_player_line_pts nan scenario)))
     = true.
Proof.
  split; [reflexivity|].
  apply (nan_driver_gives_nan_projection PrimFloat.div shipped
           (with_player_line_pts nan scenario)).
  left. reflexivity.
Defined.

(** ** The newline of the player name *)

(** X14. After the loop the name, as a C string, holds no newline, and
    it is the name as read up to its first newline: either the whole of
    it, or the part before a newline. *)
Theorem strip_newline_cuts_at_first_newline (buf : list ascii) :
  ~ In LF (c_string (strip_newline buf))
  /\ (c_string buf = c_string (strip_newline buf)
      \/ exists rest,
           c_string buf = c_string (strip_newline buf) ++ LF :: rest).
Proof.
  induction buf as [|c rest [IH1 IH2]]; simpl.
  - split; [tauto | left; reflexivity].
  - destruct (Ascii.eqb c NUL) eqn:E0.
    + simpl. rewrite E0. simpl. split; [tauto | left; reflexivity].
    + destruct (Ascii.eqb c LF) eqn:E1.
      * simpl. apply Ascii.eqb_eq in E1. subst c. split; [tauto|].
        right. exists (c_string rest). reflexivity.
      * simpl. rewrite E0. simpl. split.
        -- intros [H | H]; [|tauto].
           subst c. rewrite Ascii.eqb_refl in E1. discriminate.
        -- destruct IH2 as [H | [t H]].
           ++ left. congruence.
           ++ right. exists t. rewrite H. reflexivity.
Qed.

(** X15. The loop writes at most one byte: either the buffer is left as
    it was, or exactly the first newline, which no NUL precedes, is
    replaced by a NUL; the bytes behind it stay in the buffer, whose
    length does not change. *)
Theorem strip_newline_single_write (buf : list ascii) :
  List.length (strip_newline buf) = List.length buf
  /\ (strip_newline buf = buf
      \/ exists pre post,
           buf = pre ++ LF :: post
           /\ strip_newline buf = pre ++ NUL :: post
           /\ ~ In NUL pre /\ ~ In LF pre).
Proof.
  induction buf as [|c rest [IHl IH]]; simpl; [split; auto|].
  destruct (Ascii.eqb c NUL) eqn:E0; [split; auto|].
  destruct (Ascii.eqb c LF) eqn:E1.
  - apply Ascii.eqb_eq in E1. subst c. split; [reflexivity|].
    right. exists [], rest. simpl. tauto.
  - split; [simpl; congruence|].
    destruct IH as [H | (pre & post & H1 & H2 & H3 & H4)].
    + left. congruence.
    + right. exists (c :: pre), post. simpl. rewrite H1 at 1. rewrite H2.
      repeat split; try reflexivity.
      * intros [H | H]; [|tauto]. subst c. discriminate.
      * intros [H | H]; [|tauto]. subst c. discriminate.
Qed.

(** X16. A name without a newline (a line cut by [fgets] at the buffer
    size, or ended by the end of the input) leaves the buffer
    untouched. *)
Theorem strip_newline_without_newline (buf : list ascii) :
  ~ In LF (c_string buf) -> strip_newline buf = buf.
Proof.
  induction buf as [|c rest IH]; simpl; [reflexivity|].
  destruct (Ascii.eqb c NUL) eqn:E0; [reflexivity|].
  destruct (Ascii.eqb c LF) eqn:E1; simpl; intros H.
  - apply Ascii.eqb_eq in E1. tauto.
  - rewrite IH; [reflexivity | tauto].
Qed.

Lemma strip_newline_without_newline_witness :
  ~ In LF (c_string (list_ascii_of_string "Tim" ++ [NUL; LF]))
  /\ strip_newline (list_ascii_of_string "Tim" ++ [NUL; LF])
     = list_ascii_of_string "Tim" ++ [NUL; LF].
Proof.
  assert (H : ~ In LF (c_string (list_ascii_of_string "Tim" ++ [NUL; LF]))).
  { simpl. intros [H | [H | [H | H]]]; try discriminate H. exact H. }
  split; [exact H|].
  apply (strip_newline_without_newline _ H).
Defined.

(** The loop on a typed line. *)
Example strip_newline_typed_name :
  c_string typed_name = list_ascii_of_string "LeBron James" ++ [LF]
  /\ c_string (strip_newline typed_name) = list_ascii_of_string "LeBron James"
  /\ strip_newline typed_name
     = list_ascii_of_string "LeBron James"
       ++ [NUL; NUL; "x"%char; "y"%char].
Proof. repeat split. Qed.
